(** * A Gradio chat client for an OpenAI-compatible model server

    Shallow embedding of [run-test.py]: the request/response function
    [chat_with_model], the status probe [check_server_status], [clear_chat]
    and the event handler [submit_message], followed by the properties the
    specification states about them.

    The two HTTP calls are the only effects of the program.  They are
    modelled by a small free monad [io] whose single operation issues a
    [request] and continues with what [requests] gave back: a [response], or
    a raised exception.  Python exceptions are values of an error monad
    [result], and [try]/[except] is the combinator [try_except]. *)

From Stdlib Require Import ZArith NArith List String Ascii Bool Lia Floats.
From Stdlib Require Import DecimalString.
Import ListNotations.

#[local] Set Warnings "-register-all,-inexact-float".
Local Open Scope Z_scope.
Local Open Scope list_scope.

(** ** Python strings *)

Module PyStr.

(** A Python [str] is a sequence of Unicode code points. *)
Definition str := list N.

(** The string without characters, the source's two quotes. *)
Definition empty : str := [].

(** An ASCII literal of the source, as code points. *)
Definition lit (s : string) : str :=
  map N_of_ascii (list_ascii_of_string s).

(** [str.isspace] on one code point: the characters CPython's
    [_PyUnicode_IsWhitespace] accepts, which are the ones [str.strip()]
    removes. *)
Definition isspace (c : N) : bool :=
  ((9 <=? c) && (c <=? 13) || (28 <=? c) && (c <=? 32)
   || (c =? 133) || (c =? 160) || (c =? 5760)
   || (8192 <=? c) && (c <=? 8202)
   || (c =? 8232) || (c =? 8233) || (c =? 8239) || (c =? 8287)
   || (c =? 12288))%N.

Fixpoint lstrip (s : str) : str :=
  match s with
  | c :: s' => if isspace c then lstrip s' else s
  | [] => []
  end.

Definition rstrip (s : str) : str := rev (lstrip (rev s)).

(** [s.strip()] *)
Definition strip (s : str) : str := rstrip (lstrip s).

(** Truth value of a string in a condition: non-empty. *)
Definition truthy (s : str) : bool :=
  match s with [] => false | _ :: _ => true end.

(** [str(n)] for an [int]. *)
Definition str_of_int (z : Z) : str :=
  lit (NilZero.string_of_int (Z.to_int z)).

Fixpoint startswith (s prefix : str) {struct prefix} : bool :=
  match prefix, s with
  | [], _ => true
  | p :: prefix', c :: s' => (p =? c)%N && startswith s' prefix'
  | _ :: _, [] => false
  end.

(** [needle in hay] *)
Fixpoint contains (needle hay : str) : bool :=
  startswith hay needle ||
  match hay with
  | [] => false
  | _ :: hay' => contains needle hay'
  end.

End PyStr.
Import PyStr.

(** ** Python values that come out of [json.loads] *)

(** A [dict] is kept as the list of its items; its keys are strings and
    pairwise distinct, so looking a key up takes the first item. *)
Inductive pyval : Type :=
| PNone
| PBool (b : bool)
| PInt (z : Z)
| PFloat (f : float)
| PStr (s : str)
| PList (l : list pyval)
| PDict (items : list (str * pyval)).

(** ** Exceptions *)

(** What the program observes of an instance of [Exception]: whether it
    is an instance of [requests.exceptions.ConnectionError], whether it is
    an instance of [requests.exceptions.Timeout], and [str(e)].  The two
    classes overlap: [requests.exceptions.ConnectTimeout] derives from
    both. *)
Record exn : Type := Exn {
  is_ConnectionError : bool;
  is_Timeout : bool;
  str_exn : str
}.

Definition KeyError (repr_key : str) : exn := Exn false false repr_key.
Definition IndexError (msg : string) : exn := Exn false false (lit msg).
Definition TypeError (msg : string) : exn := Exn false false (lit msg).

(** A computation that returns a value or raises. *)
Definition result (A : Type) : Type := (exn + A)%type.

Definition ret {A} (a : A) : result A := inr a.
Definition raise {A} (e : exn) : result A := inl e.
Definition bind {A B} (c : result A) (f : A -> result B) : result B :=
  match c with
  | inl e => inl e
  | inr a => f a
  end.

Declare Scope py_scope.
Delimit Scope py_scope with py.
Notation "x <- c ;; k" := (bind c (fun x => k))
  (at level 61, c at next level, right associativity) : py_scope.

(** [try: body  except C1: h1 ... except Cn as e: hn]: the first clause
    whose class the exception is an instance of handles it; with no such
    clause the exception propagates. *)
Definition try_except {A} (body : result A)
    (handlers : list ((exn -> bool) * (exn -> result A))) : result A :=
  match body with
  | inr a => inr a
  | inl e =>
      match find (fun h => fst h e) handlers with
      | Some h => snd h e
      | None => inl e
      end
  end.

(** Every [exn] is an instance of [Exception]: the call, the decoding and
    the subscripts raise nothing else. *)
Definition is_Exception (_ : exn) : bool := true.

(** ** Subscripting *)

Inductive key : Type :=
| KStr (s : str)
| KInt (i : Z).

Fixpoint dict_get (items : list (str * pyval)) (k : str) : option pyval :=
  match items with
  | [] => None
  | (k', v) :: items' =>
      if list_eq_dec N.eq_dec k' k then Some v else dict_get items' k
  end.

(** [repr] of a string key: quoted.  Exact for keys without quotes,
    backslashes or unprintable characters, as are all keys of the program. *)
Definition repr_str (s : str) : str := lit "'" ++ s ++ lit "'".

(** [seq[i]] for a sequence of length [len]: negative indices count from
    the end. *)
Definition seq_index {A} (l : list A) (i : Z) : option A :=
  let len := Z.of_nat (List.length l) in
  if (0 <=? i) && (i <? len) then nth_error l (Z.to_nat i)
  else if (- len <=? i) && (i <? 0) then nth_error l (Z.to_nat (len + i))
  else None.

(** [obj[k]] *)
Definition getitem (obj : pyval) (k : key) : result pyval :=
  match obj, k with
  | PDict items, KStr s =>
      match dict_get items s with
      | Some v => ret v
      | None => raise (KeyError (repr_str s))
      end
  | PDict _, KInt i => raise (KeyError (str_of_int i))
  | PList l, KInt i =>
      match seq_index l i with
      | Some v => ret v
      | None => raise (IndexError "list index out of range")
      end
  | PList _, KStr _ =>
      raise (TypeError "list indices must be integers or slices, not str")
  | PStr s, KInt i =>
      match seq_index s i with
      | Some c => ret (PStr [c])
      | None => raise (IndexError "string index out of range")
      end
  | PStr _, KStr _ =>
      raise (TypeError "string indices must be integers, not 'str'")
  | PNone, _ => raise (TypeError "'NoneType' object is not subscriptable")
  | PBool _, _ => raise (TypeError "'bool' object is not subscriptable")
  | PInt _, _ => raise (TypeError "'int' object is not subscriptable")
  | PFloat _, _ => raise (TypeError "'float' object is not subscriptable")
  end.

(** ** The HTTP boundary *)

(** A chat message of the payload: [{"role": ..., "content": ...}]. *)
Record ChatMessage : Type := Message {
  role : str;
  content : pyval
}.

(** The JSON body of the chat-completions request. *)
Record payload : Type := Payload {
  model : str;
  messages : list ChatMessage;
  temperature : float;
  max_tokens : Z;
  stream : bool
}.

(** The calls the program makes: [requests.post(url, headers=, json=,
    timeout=)] and [requests.get(url, timeout=)]. *)
Inductive request : Type :=
| POST (url : str) (headers : list (str * str)) (body : payload) (timeout : Z)
| GET (url : str) (timeout : Z).

(** What the program reads of a [requests.Response]: [status_code],
    [text], and the body decoded as JSON, or the message of the decoding
    error when the body is not JSON. *)
Record response : Type := Response {
  status_code : Z;
  text : str;
  decoded : str + pyval
}.

Definition JSONDecodeError (msg : str) : exn := Exn false false msg.

(** [response.json()]: the decoded body, or [JSONDecodeError]. *)
Definition json (r : response) : result pyval :=
  match decoded r with
  | inr v => ret v
  | inl msg => raise (JSONDecodeError msg)
  end.

(** Programs that make HTTP calls.  The continuation receives the
    response, or the exception the call raised. *)
Inductive io (A : Type) : Type :=
| Ret (a : A)
| Call (r : request) (k : result response -> io A).
Arguments Ret {A} a.
Arguments Call {A} r k.

(** Running a program against a network [net] that decides the outcome of
    every call: the calls issued, in order, and the final value. *)
Fixpoint run {A} (net : request -> result response) (p : io A)
    : list request * A :=
  match p with
  | Ret a => ([], a)
  | Call r k => let (calls, a) := run net (k (net r)) in (r :: calls, a)
  end.

(** ** The program *)

(** One exchange: the user's text and the assistant's reply.  The reply
    is whatever the server's JSON holds at [content]. *)
Definition Turn : Type := (str * pyval)%type.

Definition MODEL_URL : str := lit "http://localhost:8000/v1/chat/completions".
Definition MODEL_NAME : str := lit "openai/gpt-oss-20b".

(** U+274C, U+2705 and U+26A0 U+FE0F, which open the texts shown. *)
Definition cross_mark : str := [10060%N].
Definition check_mark : str := [9989%N].
Definition warning_sign : str := [9888%N; 65039%N].

Local Open Scope py_scope.

Definition chat_with_model (message : str) (history : list Turn)
    (system_prompt : str) (temperature : float) (max_tokens : Z)
    : io (result (str * list Turn)) :=
  let messages : list ChatMessage := [] in
  let messages :=
    if truthy (strip system_prompt)
    then messages ++ [Message (lit "system") (PStr system_prompt)]
    else messages in
  let messages :=
    fold_left
      (fun messages (turn : Turn) =>
         let (user_msg, assistant_msg) := turn in
         (messages ++ [Message (lit "user") (PStr user_msg)])
           ++ [Message (lit "assistant") assistant_msg])
      history messages in
  let messages := messages ++ [Message (lit "user") (PStr message)] in
  let payload := Payload MODEL_NAME messages temperature max_tokens false in
  Call (POST MODEL_URL
             [(lit "Content-Type", lit "application/json")] payload 60)
    (fun outcome =>
       Ret (try_except
              (response <- outcome ;;
               if status_code response =? 200 then
                 result <- json response ;;
                 choices <- getitem result (KStr (lit "choices")) ;;
                 choice <- getitem choices (KInt 0) ;;
                 msg <- getitem choice (KStr (lit "message")) ;;
                 assistant_response <- getitem msg (KStr (lit "content")) ;;
                 let new_history := history ++ [(message, assistant_response)] in
                 ret (empty, new_history)
               else
                 let error_msg :=
                   lit "Error " ++ str_of_int (status_code response)
                     ++ lit ": " ++ text response in
                 let new_history :=
                   history ++ [(message,
                                PStr (cross_mark ++ lit " **Error**: " ++ error_msg))] in
                 ret (empty, new_history))
              [ (is_ConnectionError,
                 fun _ =>
                   let error_msg :=
                     cross_mark ++ lit " **Connection Error**: Could not connect to the model server. Make sure it's running on http://localhost:8000" in
                   let new_history := history ++ [(message, PStr error_msg)] in
                   ret (empty, new_history));
                (is_Timeout,
                 fun _ =>
                   let error_msg :=
                     cross_mark ++ lit " **Timeout Error**: The model took too long to respond" in
                   let new_history := history ++ [(message, PStr error_msg)] in
                   ret (empty, new_history));
                (is_Exception,
                 fun e =>
                   let error_msg :=
                     cross_mark ++ lit " **Unexpected Error**: " ++ str_exn e in
                   let new_history := history ++ [(message, PStr error_msg)] in
                   ret (empty, new_history)) ])).

Definition clear_chat : list Turn := [].

Definition check_server_status : io (result str) :=
  Call (GET (lit "http://localhost:8000/v1/models") 5)
    (fun outcome =>
       Ret (try_except
              (response <- outcome ;;
               if status_code response =? 200 then
                 ret (check_mark ++ lit " **Server Status**: Online and ready")
               else
                 ret (warning_sign
                        ++ lit " **Server Status**: Server responded with status "
                        ++ str_of_int (status_code response)))
              [ (is_ConnectionError,
                 fun _ =>
                   ret (cross_mark ++ lit " **Server Status**: Offline - Make sure to start your model server first"));
                (is_Exception,
                 fun e =>
                   ret (warning_sign
                          ++ lit " **Server Status**: Unknown error - "
                          ++ str_exn e)) ])).

(** The handler of the send button and of the enter key. *)
Definition submit_message (message : str) (history : list Turn)
    (sys_prompt : str) (temp : float) (max_tok : Z)
    : io (result (str * list Turn)) :=
  if negb (truthy (strip message)) then
    Ret (ret (empty, history))
  else
    chat_with_model message history sys_prompt temp max_tok.

Local Close Scope py_scope.

(** ** The interface: state cells and event bindings *)

Fixpoint io_bind {A B} (p : io A) (f : A -> io B) : io B :=
  match p with
  | Ret a => f a
  | Call r k => Call r (fun outcome => io_bind (k outcome) f)
  end.

Module Demo.

(** The components whose values the handlers read or write. *)
Record state : Type := State {
  status_text : str;
  chatbot : list Turn;
  msg_box : str;
  system_prompt : str;
  temperature : float;
  max_tokens : Z
}.

(** [send_btn.click] and [msg_box.submit]: [submit_message] on
    [msg_box, chatbot, system_prompt, temperature, max_tokens], its pair
    written to [msg_box, chatbot].  A handler that raises writes nothing. *)
Definition send (st : state) : io state :=
  io_bind
    (submit_message (msg_box st) (chatbot st) (system_prompt st)
                    (temperature st) (max_tokens st))
    (fun r =>
       match r with
       | inr (box, history) =>
           Ret (State (status_text st) history box (system_prompt st)
                      (temperature st) (max_tokens st))
       | inl _ => Ret st
       end).

(** [clear_btn.click]: [clear_chat] written to [chatbot]. *)
Definition clear (st : state) : state :=
  State (status_text st) clear_chat (msg_box st) (system_prompt st)
        (temperature st) (max_tokens st).

(** [refresh_btn.click]: [check_server_status] written to [status_text]. *)
Definition refresh (st : state) : io state :=
  io_bind check_server_status
    (fun r =>
       match r with
       | inr status =>
           Ret (State status (chatbot st) (msg_box st) (system_prompt st)
                      (temperature st) (max_tokens st))
       | inl _ => Ret st
       end).

End Demo.

(** ** A session: the events of the interface *)

Module Session.

(** What a user does: the two triggers bound to [submit_message] (lines
    159-169), the clear button (171-174), the refresh button (176-179),
    and editing one of the four input components the handlers read. *)
Inductive event : Type :=
| SendClick
| MsgSubmit
| ClearClick
| RefreshClick
| MsgInput (s : str)
| SystemPromptInput (s : str)
| TemperatureInput (f : float)
| MaxTokensInput (z : Z).

Definition handle (ev : event) (st : Demo.state) : io Demo.state :=
  match ev with
  | SendClick | MsgSubmit => Demo.send st
  | ClearClick => Ret (Demo.clear st)
  | RefreshClick => Demo.refresh st
  | MsgInput s =>
      Ret (Demo.State (Demo.status_text st) (Demo.chatbot st) s
             (Demo.system_prompt st) (Demo.temperature st) (Demo.max_tokens st))
  | SystemPromptInput s =>
      Ret (Demo.State (Demo.status_text st) (Demo.chatbot st) (Demo.msg_box st)
             s (Demo.temperature st) (Demo.max_tokens st))
  | TemperatureInput f =>
      Ret (Demo.State (Demo.status_text st) (Demo.chatbot st) (Demo.msg_box st)
             (Demo.system_prompt st) f (Demo.max_tokens st))
  | MaxTokensInput z =>
      Ret (Demo.State (Demo.status_text st) (Demo.chatbot st) (Demo.msg_box st)
             (Demo.system_prompt st) (Demo.temperature st) z)
  end.

(** The states a session started in [st0] can be in: after each event the
    network may answer the call of its handler in any way. *)
Inductive reachable (st0 : Demo.state) : Demo.state -> Prop :=
| reach_start : reachable st0 st0
| reach_event st ev net :
    reachable st0 st -> reachable st0 (snd (run net (handle ev st))).

End Session.

(** * Vocabulary of the specification *)

(** A mocked endpoint: every call has the same [outcome]. *)
Definition mock (outcome : result response) : request -> result response :=
  fun _ => outcome.

(** The [messages] of the chat payloads among the calls made. *)
Definition sent_messages (calls : list request) : list (list ChatMessage) :=
  flat_map
    (fun r => match r with
              | POST _ _ body _ => [messages body]
              | GET _ _ => []
              end)
    calls.

(** The two messages a Turn stands for. *)
Definition turn_messages (turn : Turn) : list ChatMessage :=
  [Message (lit "user") (PStr (fst turn)); Message (lit "assistant") (snd turn)].

(** The messages sequence in the specification's words: a system message
    if and only if the system prompt is non-empty, the history, the new
    message. *)
Definition messages_as_stated (message : str) (history : list Turn)
    (system_prompt : str) : list ChatMessage :=
  (if truthy system_prompt
   then [Message (lit "system") (PStr system_prompt)] else [])
    ++ flat_map turn_messages history
    ++ [Message (lit "user") (PStr message)].

(** The same with the system message present if and only if the system
    prompt is non-empty after trimming. *)
Definition messages_trimmed (message : str) (history : list Turn)
    (system_prompt : str) : list ChatMessage :=
  (if truthy (strip system_prompt)
   then [Message (lit "system") (PStr system_prompt)] else [])
    ++ flat_map turn_messages history
    ++ [Message (lit "user") (PStr message)].

(** Lines 54-55 on their own: the body decoded, then
    [result["choices"][0]["message"]["content"]]. *)
Definition parse_reply (r : response) : result pyval :=
  (result <- json r ;;
   choices <- getitem result (KStr (lit "choices")) ;;
   choice <- getitem choices (KInt 0) ;;
   msg <- getitem choice (KStr (lit "message")) ;;
   getitem msg (KStr (lit "content")))%py.

(** The expected response shape:
    [{"choices": [{"message": {"content": v}}, ...]}]. *)
Definition well_shaped (body v : pyval) : Prop :=
  exists top c rest m,
    body = PDict top /\
    dict_get top (lit "choices") = Some (PList (PDict c :: rest)) /\
    dict_get c (lit "message") = Some (PDict m) /\
    dict_get m (lit "content") = Some v.

(** The texts of lines 62, 66, 70 and 74. *)
Definition http_error_text (code : Z) (body : str) : str :=
  cross_mark ++ lit " **Error**: Error " ++ str_of_int code ++ lit ": " ++ body.
Definition connection_error_text : str :=
  cross_mark ++ lit " **Connection Error**: Could not connect to the model server. Make sure it's running on http://localhost:8000".
Definition timeout_error_text : str :=
  cross_mark ++ lit " **Timeout Error**: The model took too long to respond".
Definition unexpected_error_text (description : str) : str :=
  cross_mark ++ lit " **Unexpected Error**: " ++ description.

(** A fault that is neither a connection error nor a timeout. *)
Definition plain (e : exn) : Prop :=
  is_ConnectionError e = false /\ is_Timeout e = false.

(** The assistant text of the Turn a raised exception is turned into:
    the [except] clauses of lines 65-76, first match first. *)
Definition fault_text (e : exn) : str :=
  if is_ConnectionError e then connection_error_text
  else if is_Timeout e then timeout_error_text
  else unexpected_error_text (str_exn e).

(** The reply recorded for each outcome of the POST. *)
Definition reply_to (outcome : result response) : pyval :=
  match outcome with
  | inl e => PStr (fault_text e)
  | inr r =>
      if status_code r =? 200 then
        match parse_reply r with
        | inr v => v
        | inl e => PStr (unexpected_error_text (str_exn e))
        end
      else PStr (http_error_text (status_code r) (text r))
  end.

(** The call of lines 46-51. *)
Definition chat_request (message : str) (history : list Turn)
    (system_prompt : str) (temperature : float) (max_tokens : Z) : request :=
  POST MODEL_URL [(lit "Content-Type", lit "application/json")]
    (Payload MODEL_NAME (messages_trimmed message history system_prompt)
             temperature max_tokens false)
    60.

(** The texts of lines 87, 89, 91 and 93, and the call of line 85. *)
Definition online_text : str :=
  check_mark ++ lit " **Server Status**: Online and ready".
Definition degraded_text (code : Z) : str :=
  warning_sign ++ lit " **Server Status**: Server responded with status "
    ++ str_of_int code.
Definition offline_text : str :=
  cross_mark ++ lit " **Server Status**: Offline - Make sure to start your model server first".
Definition unknown_text (description : str) : str :=
  warning_sign ++ lit " **Server Status**: Unknown error - " ++ description.
Definition status_request : request :=
  GET (lit "http://localhost:8000/v1/models") 5.

(** The mocked replies of the specification's examples. *)
Definition quoted (s : str) : str := [34%N] ++ s ++ [34%N].
Definition hello_response : response :=
  Response 200
    (lit "{" ++ quoted (lit "choices") ++ lit ":[{" ++ quoted (lit "message")
       ++ lit ":{" ++ quoted (lit "content") ++ lit ":" ++ quoted (lit "hello")
       ++ lit "}}]}")
    (inr (PDict [(lit "choices",
                  PList [PDict [(lit "message",
                                 PDict [(lit "content", PStr (lit "hello"))])]])])).
Definition no_choice_response : response :=
  Response 200 (lit "{" ++ quoted (lit "choices") ++ lit ":[]}")
    (inr (PDict [(lit "choices", PList [])])).
Definition server_error_response : response :=
  Response 500 (lit "server error") (inl (lit "Expecting value: line 1 column 1 (char 0)")).

(** [requests.exceptions.ConnectTimeout]: both a [ConnectionError] and a
    [Timeout]. *)
Definition ConnectTimeout (description : str) : exn := Exn true true description.

(** More replies a server can give with status 200: an error object in
    place of the completion, a page that is not JSON, and a completion
    with a second choice. *)
Definition error_body_response : response :=
  Response 200
    (lit "{" ++ quoted (lit "error") ++ lit ":" ++ quoted (lit "overloaded")
       ++ lit "}")
    (inr (PDict [(lit "error", PStr (lit "overloaded"))])).
Definition html_response : response :=
  Response 200 (lit "<html>Bad Gateway</html>")
    (inl (lit "Expecting value: line 1 column 1 (char 0)")).
Definition two_choice_response : response :=
  Response 200
    (lit "{" ++ quoted (lit "choices") ++ lit ":[{" ++ quoted (lit "message")
       ++ lit ":{" ++ quoted (lit "content") ++ lit ":" ++ quoted (lit "hello")
       ++ lit "}},{" ++ quoted (lit "message") ++ lit ":{"
       ++ quoted (lit "content") ++ lit ":" ++ quoted (lit "bye") ++ lit "}}]}")
    (inr (PDict [(lit "choices",
                  PList [PDict [(lit "message",
                                 PDict [(lit "content", PStr (lit "hello"))])];
                         PDict [(lit "message",
                                 PDict [(lit "content", PStr (lit "bye"))])]])])).

(** A state of the interface with a conversation of one Turn and a
    message typed in. *)
Definition sample_state : Demo.state :=
  Demo.State offline_text [(lit "a", PStr (lit "b"))] (lit "hi")
    (lit "be brief") 0.7%float 512.

(** * Properties *)

Arguments lit : simpl never.
Arguments str_of_int : simpl never.

(** ** Strings *)

Lemma lstrip_nil_iff s : lstrip s = [] <-> forallb isspace s = true.
Proof.
  induction s as [|c s IH]; simpl.
  - tauto.
  - destruct (isspace c); simpl; [exact IH | split; discriminate].
Qed.

Lemma lstrip_head s c t : lstrip s = c :: t -> isspace c = false.
Proof.
  induction s as [|d s IH]; simpl; [discriminate|].
  destruct (isspace d) eqn:Ed; [exact IH|].
  intros E. injection E as -> _. exact Ed.
Qed.

(** Trimming leaves nothing exactly when every character is whitespace. *)
Lemma strip_nil_iff s : strip s = [] <-> forallb isspace s = true.
Proof.
  unfold strip, rstrip. split.
  - intros H. apply (f_equal (@rev N)) in H.
    rewrite rev_involutive in H. simpl in H.
    apply lstrip_nil_iff in H. rewrite forallb_forall in H.
    destruct (lstrip s) as [|c t] eqn:E.
    + now apply lstrip_nil_iff.
    + apply lstrip_head in E.
      assert (Hc : isspace c = true).
      { apply H, in_rev. rewrite rev_involutive. now left. }
      congruence.
  - intros H. apply lstrip_nil_iff in H. now rewrite H.
Qed.

Lemma truthy_strip_false s : forallb isspace s = true -> truthy (strip s) = false.
Proof. intros H. apply strip_nil_iff in H. now rewrite H. Qed.

Lemma truthy_strip_true s : strip s <> [] -> truthy (strip s) = true.
Proof. destruct (strip s); [congruence | reflexivity]. Qed.

Lemma startswith_app p s : startswith (p ++ s) p = true.
Proof.
  induction p as [|c p IH]; simpl; [reflexivity|].
  now rewrite N.eqb_refl.
Qed.

Lemma contains_here needle rest : contains needle (needle ++ rest) = true.
Proof.
  destruct (needle ++ rest) eqn:E; simpl; rewrite <- E, startswith_app;
    reflexivity.
Qed.

(** A string contains each piece it was concatenated from. *)
Lemma contains_app before needle rest :
  contains needle (before ++ needle ++ rest) = true.
Proof.
  induction before as [|c before IH]; simpl.
  - apply contains_here.
  - rewrite IH. apply orb_true_r.
Qed.

Lemma contains_end before needle : contains needle (before ++ needle) = true.
Proof.
  rewrite <- (app_nil_r needle) at 2. apply contains_app.
Qed.

(** ** Subscripting and decoding *)

Lemma getitem_plain obj k e : getitem obj k = inl e -> plain e.
Proof.
  unfold getitem, raise, ret.
  destruct obj, k;
    repeat match goal with
           | |- context [match ?x with _ => _ end] => destruct x
           end;
    intros H; inversion H; split; reflexivity.
Qed.

Lemma json_plain r e : json r = inl e -> plain e.
Proof.
  unfold json. destruct (decoded r); intros H; inversion H. split; reflexivity.
Qed.

Ltac step_binds :=
  repeat match goal with
         | H : context [bind ?c _] |- _ =>
             let E := fresh "E" in destruct c eqn:E; cbn [bind] in H
         end.

(** Whatever goes wrong while reading the reply is neither a connection
    error nor a timeout. *)
Lemma parse_reply_plain r e : parse_reply r = inl e -> plain e.
Proof.
  unfold parse_reply. intros H. step_binds;
    match goal with
    | H : inl _ = inl _ |- _ => injection H as <-
    | _ => idtac
    end;
    eauto using getitem_plain, json_plain.
Qed.

Lemma seq_index_first {A} (x : A) l : seq_index (x :: l) 0 = Some x.
Proof.
  unfold seq_index.
  replace (0 <? Z.of_nat (List.length (x :: l))) with true; [reflexivity|].
  symmetry. apply Z.ltb_lt. simpl List.length. lia.
Qed.

(** A reply of the expected shape is read without a fault. *)
Lemma parse_reply_well_shaped r body v :
  decoded r = inr body -> well_shaped body v -> parse_reply r = inr v.
Proof.
  intros Hd (top & c & rest & m & -> & Hc & Hm & Hv).
  unfold parse_reply, json. rewrite Hd. cbn [bind ret getitem].
  rewrite Hc. cbn [bind ret getitem]. rewrite seq_index_first.
  cbn [bind ret getitem]. rewrite Hm. cbn [bind ret getitem].
  rewrite Hv. reflexivity.
Qed.

(** Conversely, a reply that is read without a fault has the expected
    shape. *)
Lemma parse_reply_inr r v :
  parse_reply r = inr v -> exists body, decoded r = inr body /\ well_shaped body v.
Proof.
  unfold parse_reply, json. destruct (decoded r) as [msg|body]; [discriminate|].
  cbn [bind ret]. intros H. exists body. split; [reflexivity|].
  destruct body as [| | | | |l|top]; try discriminate.
  cbn [getitem] in H.
  destruct (dict_get top (lit "choices")) as [choices|] eqn:Hc; [|discriminate].
  cbn [bind ret] in H.
  destruct choices as [| | | |s|l|items]; try discriminate.
  - cbn [getitem] in H. destruct (seq_index s 0); discriminate.
  - cbn [getitem] in H. destruct l as [|choice rest]; [discriminate|].
    rewrite seq_index_first in H. cbn [bind ret] in H.
    destruct choice as [| | | | |l'|c]; try discriminate.
    cbn [getitem] in H.
    destruct (dict_get c (lit "message")) as [msg|] eqn:Hm; [|discriminate].
    cbn [bind ret] in H.
    destruct msg as [| | | | |l'|m]; try discriminate.
    cbn [getitem] in H.
    destruct (dict_get m (lit "content")) as [v'|] eqn:Hv; [|discriminate].
    injection H as <-.
    exists top, c, rest, m. auto.
Qed.

(** ** The request *)

(** The loop of lines 29-31 appends the messages of the turns, in order. *)
Lemma history_loop (history : list Turn) (init : list ChatMessage) :
  fold_left
    (fun messages (turn : Turn) =>
       let (user_msg, assistant_msg) := turn in
       (messages ++ [Message (lit "user") (PStr user_msg)])
         ++ [Message (lit "assistant") assistant_msg])
    history init
  = init ++ flat_map turn_messages history.
Proof.
  revert init. induction history as [|[u a] history IH]; intros init.
  - simpl. now rewrite app_nil_r.
  - cbn [fold_left flat_map]. rewrite IH. unfold turn_messages at 2.
    cbn [fst snd]. now rewrite <- !app_assoc.
Qed.

(** [chat_with_model] makes exactly one call, [chat_request], and returns
    the conversation extended by [reply_to] what the call gave. *)
Lemma chat_with_model_run net message history sp t mt :
  run net (chat_with_model message history sp t mt)
  = ([chat_request message history sp t mt],
     inr (empty, history
              ++ [(message, reply_to (net (chat_request message history sp t mt)))])).
Proof.
  unfold chat_with_model. cbn [run]. rewrite history_loop.
  assert (Hreq :
    POST MODEL_URL [(lit "Content-Type", lit "application/json")]
      (Payload MODEL_NAME
         (((if truthy (strip sp)
            then [] ++ [Message (lit "system") (PStr sp)] else [])
             ++ flat_map turn_messages history)
            ++ [Message (lit "user") (PStr message)]) t mt false) 60
    = chat_request message history sp t mt).
  { unfold chat_request, messages_trimmed.
    destruct (truthy (strip sp)); cbn [app]; now rewrite <- ?app_assoc. }
  rewrite Hreq. f_equal.
  destruct (net (chat_request message history sp t mt)) as [e|r];
    cbn [bind try_except find fst snd reply_to].
  - unfold fault_text.
    destruct (is_ConnectionError e); [reflexivity|].
    destruct (is_Timeout e); reflexivity.
  - destruct (status_code r =? 200); [|reflexivity].
    destruct (parse_reply r) as [e|v] eqn:Hp.
    + destruct (parse_reply_plain _ _ Hp) as [Hc Ht].
      revert Hp. unfold parse_reply.
      destruct (json r) as [e0|result]; cbn [bind].
      { intros [= ->]. cbn [try_except find fst snd]. now rewrite Hc, Ht. }
      destruct (getitem result _) as [e0|choices]; cbn [bind].
      { intros [= ->]. cbn [try_except find fst snd]. now rewrite Hc, Ht. }
      destruct (getitem choices _) as [e0|choice]; cbn [bind].
      { intros [= ->]. cbn [try_except find fst snd]. now rewrite Hc, Ht. }
      destruct (getitem choice _) as [e0|msg]; cbn [bind].
      { intros [= ->]. cbn [try_except find fst snd]. now rewrite Hc, Ht. }
      destruct (getitem msg _) as [e0|a]; cbn [bind].
      { intros [= ->]. cbn [try_except find fst snd]. now rewrite Hc, Ht. }
      discriminate.
    + revert Hp. unfold parse_reply.
      destruct (json r) as [e0|result]; cbn [bind]; [discriminate|].
      destruct (getitem result _) as [e0|choices]; cbn [bind]; [discriminate|].
      destruct (getitem choices _) as [e0|choice]; cbn [bind]; [discriminate|].
      destruct (getitem choice _) as [e0|msg]; cbn [bind]; [discriminate|].
      destruct (getitem msg _) as [e0|a]; cbn [bind]; [discriminate|].
      intros [= ->]. reflexivity.
Qed.

(** With a message that is not blank, [submit_message] is
    [chat_with_model]. *)
Lemma submit_message_chat message history sp t mt :
  strip message <> [] ->
  submit_message message history sp t mt
  = chat_with_model message history sp t mt.
Proof.
  intros H. unfold submit_message. now rewrite truthy_strip_true.
Qed.

Lemma submit_message_blank message history sp t mt :
  strip message = [] ->
  submit_message message history sp t mt = Ret (inr (empty, history)).
Proof.
  intros H. unfold submit_message. now rewrite H.
Qed.

(** [check_server_status] makes exactly one call and never raises. *)
Lemma check_server_status_run net :
  run net check_server_status
  = ([status_request],
     inr (match net status_request with
          | inr r => if status_code r =? 200 then online_text
                     else degraded_text (status_code r)
          | inl e => if is_ConnectionError e then offline_text
                     else unknown_text (str_exn e)
          end)).
Proof.
  unfold check_server_status. cbn [run]. fold status_request. f_equal.
  destruct (net status_request) as [e|r]; cbn [bind try_except find fst snd].
  - destruct (is_ConnectionError e); reflexivity.
  - destruct (status_code r =? 200); reflexivity.
Qed.

(** ** Sending a message *)

(** C1: for a message that is not blank and whatever the HTTP call gives,
    the conversation returned is the input conversation followed by exactly
    one Turn whose first element is the message as given: one longer, the
    earlier turns in place and unchanged. *)
Theorem send_appends_one_turn message history sp t mt net :
  strip message <> [] ->
  exists reply,
    snd (run net (submit_message message history sp t mt))
    = inr (empty, history ++ [(message, reply)]) /\
    List.length (history ++ [(message, reply)]) = S (List.length history) /\
    firstn (List.length history) (history ++ [(message, reply)]) = history /\
    nth_error (history ++ [(message, reply)]) (List.length history)
    = Some (message, reply).
Proof.
  intros H. rewrite (submit_message_chat _ _ _ _ _ H), chat_with_model_run.
  eexists. split; [reflexivity|]. repeat split.
  - rewrite length_app. simpl. lia.
  - rewrite firstn_app, Nat.sub_diag, firstn_all. simpl. apply app_nil_r.
  - rewrite nth_error_app2, Nat.sub_diag by lia. reflexivity.
Qed.

Lemma send_appends_one_turn_witness :
  exists reply,
    snd (run (mock (inr server_error_response))
           (submit_message (lit "hi") [(lit "a", PStr (lit "b"))] []
              0.7%float 512))
    = inr (empty, [(lit "a", PStr (lit "b"))] ++ [(lit "hi", reply)]) /\
    List.length ([(lit "a", PStr (lit "b"))] ++ [(lit "hi", reply)]) = 2%nat /\
    firstn 1 ([(lit "a", PStr (lit "b"))] ++ [(lit "hi", reply)])
    = [(lit "a", PStr (lit "b"))] /\
    nth_error ([(lit "a", PStr (lit "b"))] ++ [(lit "hi", reply)]) 1
    = Some (lit "hi", reply).
Proof.
  apply (send_appends_one_turn (lit "hi") [(lit "a", PStr (lit "b"))] []
           0.7%float 512 (mock (inr server_error_response))).
  vm_compute. discriminate.
Defined.

(** C2: a message that is empty or all whitespace is ignored: the handler
    returns at once, without a call, the empty text and the conversation it
    was given. *)
Theorem blank_message_is_noop message history sp t mt :
  forallb isspace message = true ->
  submit_message message history sp t mt = Ret (inr (empty, history)) /\
  forall net,
    run net (submit_message message history sp t mt) = ([], inr (empty, history)).
Proof.
  intros H. apply strip_nil_iff in H.
  rewrite (submit_message_blank _ _ _ _ _ H). split; reflexivity.
Qed.

Lemma blank_message_is_noop_witness :
  submit_message [32; 9; 10; 160]%N [(lit "a", PStr (lit "b"))] (lit "be brief")
    0.7%float 512
  = Ret (inr (empty, [(lit "a", PStr (lit "b"))])) /\
  forall net,
    run net (submit_message [32; 9; 10; 160]%N [(lit "a", PStr (lit "b"))]
               (lit "be brief") 0.7%float 512)
    = ([], inr (empty, [(lit "a", PStr (lit "b"))])).
Proof.
  apply (blank_message_is_noop [32; 9; 10; 160]%N). reflexivity.
Defined.

(** C3, as the code has it: the one call [chat_with_model] makes is the
    POST whose messages are the system message first if and only if the
    system prompt is non-empty after trimming (its content the prompt as
    given), then a user and an assistant message per existing Turn in
    order, then the user message holding the new message; for a message
    that is not blank the handler makes that same call. *)
Theorem request_messages_in_order message history sp t mt net :
  strip message <> [] ->
  fst (run net (chat_with_model message history sp t mt))
  = [POST MODEL_URL [(lit "Content-Type", lit "application/json")]
       (Payload MODEL_NAME (messages_trimmed message history sp) t mt false)
       60] /\
  fst (run net (submit_message message history sp t mt))
  = fst (run net (chat_with_model message history sp t mt)) /\
  sent_messages (fst (run net (submit_message message history sp t mt)))
  = [messages_trimmed message history sp].
Proof.
  intros H. rewrite (submit_message_chat _ _ _ _ _ H), chat_with_model_run.
  repeat split.
Qed.

Lemma request_messages_in_order_witness :
  sent_messages
    (fst (run (mock (inr hello_response))
            (submit_message (lit "hi") [(lit "a", PStr (lit "b"))]
               (lit "be brief") 0.7%float 512)))
  = [[Message (lit "system") (PStr (lit "be brief"));
      Message (lit "user") (PStr (lit "a"));
      Message (lit "assistant") (PStr (lit "b"));
      Message (lit "user") (PStr (lit "hi"))]].
Proof.
  apply (request_messages_in_order (lit "hi") [(lit "a", PStr (lit "b"))]
           (lit "be brief") 0.7%float 512 (mock (inr hello_response))).
  vm_compute. discriminate.
Defined.

(** C3 as stated fails: a system prompt of one space is non-empty, yet no
    system message is sent. *)
Lemma blank_system_prompt_not_sent :
  truthy (lit " ") = true /\
  sent_messages
    (fst (run (mock (inr hello_response))
            (submit_message (lit "hi") [] (lit " ") 0.7%float 512)))
  = [[Message (lit "user") (PStr (lit "hi"))]] /\
  sent_messages
    (fst (run (mock (inr hello_response))
            (submit_message (lit "hi") [] (lit " ") 0.7%float 512)))
  <> [messages_as_stated (lit "hi") [] (lit " ")].
Proof.
  split; [reflexivity|]. split; [reflexivity|].
  vm_compute. discriminate.
Qed.

(** C4: on status 200 with a body of the expected shape the content of the
    first choice's message is the reply recorded, and the text returned is
    empty. *)
Theorem success_reply_recorded message history sp t mt r body v :
  strip message <> [] ->
  status_code r = 200 ->
  decoded r = inr body ->
  well_shaped body v ->
  snd (run (mock (inr r)) (submit_message message history sp t mt))
  = inr (empty, history ++ [(message, v)]).
Proof.
  intros H Hs Hd Hw.
  rewrite (submit_message_chat _ _ _ _ _ H), chat_with_model_run.
  cbn [snd mock reply_to]. rewrite Hs. cbn [Z.eqb Pos.eqb].
  now rewrite (parse_reply_well_shaped _ _ _ Hd Hw).
Qed.

Lemma success_reply_recorded_witness :
  snd (run (mock (inr hello_response))
         (submit_message (lit "hi") [] [] 0.7%float 512))
  = inr (empty, [(lit "hi", PStr (lit "hello"))]).
Proof.
  apply (success_reply_recorded (lit "hi") [] [] 0.7%float 512 hello_response
           (PDict [(lit "choices",
                    PList [PDict [(lit "message",
                                   PDict [(lit "content", PStr (lit "hello"))])]])])
           (PStr (lit "hello"))).
  - vm_compute. discriminate.
  - reflexivity.
  - reflexivity.
  - unfold well_shaped. do 4 eexists.
    split; [reflexivity|]. split; [reflexivity|]. split; reflexivity.
Defined.

(** C5: on any status other than 200 the call returns normally and the
    reply recorded is the error text, which contains the status code in
    decimal and the raw response body. *)
Theorem http_error_recorded message history sp t mt r :
  strip message <> [] ->
  status_code r <> 200 ->
  snd (run (mock (inr r)) (submit_message message history sp t mt))
  = inr (empty, history
             ++ [(message, PStr (http_error_text (status_code r) (text r)))]) /\
  contains (str_of_int (status_code r))
    (http_error_text (status_code r) (text r)) = true /\
  contains (text r) (http_error_text (status_code r) (text r)) = true.
Proof.
  intros H Hs.
  rewrite (submit_message_chat _ _ _ _ _ H), chat_with_model_run.
  cbn [snd mock reply_to]. apply Z.eqb_neq in Hs. rewrite Hs.
  split; [reflexivity|]. unfold http_error_text. split.
  - rewrite (app_assoc cross_mark). apply contains_app.
  - rewrite !app_assoc. apply contains_end.
Qed.

Lemma http_error_recorded_witness :
  snd (run (mock (inr server_error_response))
         (submit_message (lit "hi") [] [] 0.7%float 512))
  = inr (empty, [(lit "hi", PStr (http_error_text 500 (lit "server error")))]) /\
  contains (lit "500") (http_error_text 500 (lit "server error")) = true /\
  contains (lit "server error") (http_error_text 500 (lit "server error")) = true.
Proof.
  apply (http_error_recorded (lit "hi") [] [] 0.7%float 512
           server_error_response).
  - vm_compute. discriminate.
  - discriminate.
Defined.

(** C6: whatever the inputs and whatever the HTTP call gives, the handler
    and [chat_with_model] return normally, the text returned is empty, and
    [chat_with_model] always records a Turn for the message; a call that
    raised is recorded as the Turn holding the text of the fault. *)
Theorem send_never_raises message history sp t mt net :
  (exists updated,
     snd (run net (submit_message message history sp t mt))
     = inr (empty, updated)) /\
  (exists reply,
     snd (run net (chat_with_model message history sp t mt))
     = inr (empty, history ++ [(message, reply)])) /\
  (forall e,
     snd (run (mock (inl e)) (chat_with_model message history sp t mt))
     = inr (empty, history ++ [(message, PStr (fault_text e))])).
Proof.
  split; [|split].
  - unfold submit_message. destruct (negb (truthy (strip message))).
    + eexists. reflexivity.
    + rewrite chat_with_model_run. eexists. reflexivity.
  - rewrite chat_with_model_run. eexists. reflexivity.
  - intros e. rewrite chat_with_model_run. reflexivity.
Qed.

(** C7, as the code has it: a call that raised is recorded with the user
    message first and, as reply, the fixed connection-error text when the
    fault is a connection error, the fixed timeout text when it is a
    timeout that is not a connection error, and otherwise the text that
    embeds the fault's description; the three texts differ. *)
Theorem network_faults_recorded message history sp t mt e :
  strip message <> [] ->
  snd (run (mock (inl e)) (submit_message message history sp t mt))
  = inr (empty, history
             ++ [(message,
                  PStr (if is_ConnectionError e then connection_error_text
                        else if is_Timeout e then timeout_error_text
                        else unexpected_error_text (str_exn e)))]) /\
  contains (str_exn e) (unexpected_error_text (str_exn e)) = true /\
  connection_error_text <> timeout_error_text /\
  (forall d, unexpected_error_text d <> connection_error_text) /\
  (forall d, unexpected_error_text d <> timeout_error_text).
Proof.
  intros H. rewrite (submit_message_chat _ _ _ _ _ H), chat_with_model_run.
  split; [reflexivity|]. split.
  - unfold unexpected_error_text. rewrite app_assoc. apply contains_end.
  - assert (Hfifth : forall a b : str, nth 4 a 0%N <> nth 4 b 0%N -> a <> b)
      by (intros a b Hn ->; now apply Hn).
    split; [|split; intros d]; apply Hfifth; vm_compute; discriminate.
Qed.

Lemma network_faults_recorded_witness :
  snd (run (mock (inl (Exn false true (lit "Read timed out."))))
         (submit_message (lit "hi") [] [] 0.7%float 512))
  = inr (empty, [(lit "hi", PStr timeout_error_text)]) /\
  contains (lit "Read timed out.")
    (unexpected_error_text (lit "Read timed out.")) = true /\
  connection_error_text <> timeout_error_text /\
  (forall d, unexpected_error_text d <> connection_error_text) /\
  (forall d, unexpected_error_text d <> timeout_error_text).
Proof.
  apply (network_faults_recorded (lit "hi") [] [] 0.7%float 512
           (Exn false true (lit "Read timed out."))).
  vm_compute. discriminate.
Defined.

(** C7 as stated fails: a connect timeout is a timeout, and it is
    recorded with the connection-error text, not the timeout text. *)
Lemma connect_timeout_recorded_as_connection_error :
  is_Timeout (ConnectTimeout (lit "timed out")) = true /\
  snd (run (mock (inl (ConnectTimeout (lit "timed out"))))
         (submit_message (lit "hi") [] [] 0.7%float 512))
  = inr (empty, [(lit "hi", PStr connection_error_text)]) /\
  snd (run (mock (inl (ConnectTimeout (lit "timed out"))))
         (submit_message (lit "hi") [] [] 0.7%float 512))
  <> inr (empty, [(lit "hi", PStr timeout_error_text)]).
Proof.
  split; [reflexivity|]. split; [reflexivity|].
  vm_compute. discriminate.
Qed.

(** ** Server status *)

(** C8: [check_server_status] makes the GET and returns a text, never
    raising: the online text on status 200, on another status the degraded
    text, which contains the code, on a connection error the offline text,
    on any other fault the unknown-status text, which contains the fault's
    description. *)
Theorem check_status_mapping net :
  fst (run net check_server_status) = [status_request] /\
  (exists status, snd (run net check_server_status) = inr status) /\
  (forall r, net status_request = inr r -> status_code r = 200 ->
     snd (run net check_server_status) = inr online_text) /\
  (forall r, net status_request = inr r -> status_code r <> 200 ->
     snd (run net check_server_status) = inr (degraded_text (status_code r)) /\
     contains (str_of_int (status_code r)) (degraded_text (status_code r))
     = true) /\
  (forall e, net status_request = inl e -> is_ConnectionError e = true ->
     snd (run net check_server_status) = inr offline_text) /\
  (forall e, net status_request = inl e -> is_ConnectionError e = false ->
     snd (run net check_server_status) = inr (unknown_text (str_exn e)) /\
     contains (str_exn e) (unknown_text (str_exn e)) = true).
Proof.
  rewrite check_server_status_run. cbn [fst snd].
  split; [reflexivity|]. split; [eexists; reflexivity|].
  split; [|split; [|split]].
  - intros r -> ->. reflexivity.
  - intros r -> Hs. apply Z.eqb_neq in Hs. rewrite Hs.
    split; [reflexivity|]. unfold degraded_text.
    rewrite app_assoc. apply contains_end.
  - intros e -> ->. reflexivity.
  - intros e -> ->. split; [reflexivity|]. unfold unknown_text.
    rewrite app_assoc. apply contains_end.
Qed.

Lemma check_status_mapping_witness :
  snd (run (mock (inr server_error_response)) check_server_status)
  = inr (degraded_text 500) /\
  contains (lit "500") (degraded_text 500) = true.
Proof.
  destruct (check_status_mapping (mock (inr server_error_response)))
    as (_ & _ & _ & Hdegraded & _).
  apply (Hdegraded server_error_response); [reflexivity | discriminate].
Defined.

(** ** Clearing *)

(** C9: [clear_chat] is the empty conversation whatever the conversation
    was before; the clear button leaves the chatbot empty from any state,
    and pressing it a second time changes nothing. *)
Theorem clear_chat_empty_idempotent :
  clear_chat = [] /\
  (forall st, Demo.chatbot (Demo.clear st) = []) /\
  (forall st, Demo.clear (Demo.clear st) = Demo.clear st).
Proof.
  split; [reflexivity | split; intros st; reflexivity].
Qed.

(** ** Malformed replies *)

(** C10: on status 200 with a body that is not JSON or not of the
    expected shape, reading the reply raises, the fault is caught by the
    last [except] clause, and the Turn recorded holds the text that embeds
    the fault's description. *)
Theorem malformed_reply_recorded message history sp t mt r :
  strip message <> [] ->
  status_code r = 200 ->
  (forall body v, decoded r = inr body -> ~ well_shaped body v) ->
  exists e,
    parse_reply r = inl e /\
    snd (run (mock (inr r)) (submit_message message history sp t mt))
    = inr (empty, history
               ++ [(message, PStr (unexpected_error_text (str_exn e)))]) /\
    contains (str_exn e) (unexpected_error_text (str_exn e)) = true.
Proof.
  intros H Hs Hshape.
  destruct (parse_reply r) as [e|v] eqn:Hp.
  - exists e. split; [reflexivity|].
    rewrite (submit_message_chat _ _ _ _ _ H), chat_with_model_run.
    cbn [snd mock reply_to]. rewrite Hs, Hp. split; [reflexivity|].
    unfold unexpected_error_text. rewrite app_assoc. apply contains_end.
  - destruct (parse_reply_inr _ _ Hp) as (body & Hd & Hw).
    destruct (Hshape body v Hd Hw).
Qed.

Lemma malformed_reply_recorded_witness :
  exists e,
    parse_reply no_choice_response
    = inl e /\
    snd (run (mock (inr no_choice_response))
           (submit_message (lit "hi") [] [] 0.7%float 512))
    = inr (empty, [] ++ [(lit "hi", PStr (unexpected_error_text (str_exn e)))]) /\
    contains (str_exn e) (unexpected_error_text (str_exn e)) = true.
Proof.
  apply (malformed_reply_recorded (lit "hi") [] [] 0.7%float 512
           no_choice_response).
  - vm_compute. discriminate.
  - reflexivity.
  - intros body v Hd (top & c & rest & m & -> & Hc & _).
    injection Hd as <-. vm_compute in Hc. discriminate.
Defined.

(** ** The interface *)

Lemma run_io_bind {A B} net (p : io A) (f : A -> io B) :
  run net (io_bind p f)
  = (fst (run net p) ++ fst (run net (f (snd (run net p)))),
     snd (run net (f (snd (run net p))))).
Proof.
  induction p as [a|r k IH]; cbn [io_bind run fst snd app].
  - now destruct (run net (f a)).
  - rewrite IH. destruct (run net (k (net r))) as [calls a]. reflexivity.
Qed.

(** Sending always empties the message box and never touches the
    settings. *)
Lemma send_clears_box net st :
  Demo.msg_box (snd (run net (Demo.send st))) = [] /\
  Demo.system_prompt (snd (run net (Demo.send st))) = Demo.system_prompt st /\
  Demo.temperature (snd (run net (Demo.send st))) = Demo.temperature st /\
  Demo.max_tokens (snd (run net (Demo.send st))) = Demo.max_tokens st.
Proof.
  unfold Demo.send. rewrite run_io_bind. cbn [snd].
  unfold submit_message. destruct (negb (truthy (strip (Demo.msg_box st)))).
  - cbn. repeat split.
  - rewrite chat_with_model_run. cbn. repeat split.
Qed.

(** Refreshing only rewrites the status line. *)
Lemma refresh_keeps_chat net st :
  Demo.chatbot (snd (run net (Demo.refresh st))) = Demo.chatbot st /\
  Demo.msg_box (snd (run net (Demo.refresh st))) = Demo.msg_box st.
Proof.
  unfold Demo.refresh. rewrite run_io_bind, check_server_status_run.
  cbn. split; reflexivity.
Qed.

(** * Further properties of the code *)

(** ** Conversations over several calls *)

Lemma messages_trimmed_snoc m1 m2 history reply sp :
  messages_trimmed m2 (history ++ [(m1, reply)]) sp
  = messages_trimmed m1 history sp
      ++ [Message (lit "assistant") reply; Message (lit "user") (PStr m2)].
Proof.
  unfold messages_trimmed. rewrite flat_map_app.
  cbn [flat_map turn_messages fst snd app].
  now rewrite <- !app_assoc.
Qed.

(** X1: the request of the next send is the request of this send with two
    messages added: the reply just recorded, as an assistant message, and
    the new user message.  Lines 22-34 and 58. *)
Theorem next_request_extends_previous m1 m2 history sp t mt net1 net2 :
  strip m1 <> [] ->
  strip m2 <> [] ->
  exists reply sent,
    run net1 (submit_message m1 history sp t mt)
    = ([POST MODEL_URL [(lit "Content-Type", lit "application/json")]
          (Payload MODEL_NAME sent t mt false) 60],
       inr (empty, history ++ [(m1, reply)])) /\
    sent_messages
      (fst (run net2 (submit_message m2 (history ++ [(m1, reply)]) sp t mt)))
    = [sent ++ [Message (lit "assistant") reply;
                Message (lit "user") (PStr m2)]].
Proof.
  intros H1 H2.
  rewrite (submit_message_chat _ _ _ _ _ H1), chat_with_model_run.
  do 2 eexists. split; [reflexivity|].
  rewrite (submit_message_chat _ _ _ _ _ H2), chat_with_model_run.
  cbn [fst sent_messages flat_map chat_request messages app].
  now rewrite messages_trimmed_snoc.
Qed.

Lemma next_request_extends_previous_witness :
  exists reply sent,
    run (mock (inr hello_response))
      (submit_message (lit "hi") [] (lit "be brief") 0.7%float 512)
    = ([POST MODEL_URL [(lit "Content-Type", lit "application/json")]
          (Payload MODEL_NAME sent 0.7%float 512 false) 60],
       inr (empty, [] ++ [(lit "hi", reply)])) /\
    sent_messages
      (fst (run (mock (inr server_error_response))
              (submit_message (lit "more") ([] ++ [(lit "hi", reply)])
                 (lit "be brief") 0.7%float 512)))
    = [sent ++ [Message (lit "assistant") reply;
                Message (lit "user") (PStr (lit "more"))]].
Proof.
  apply (next_request_extends_previous (lit "hi") (lit "more") []
           (lit "be brief") 0.7%float 512);
    vm_compute; discriminate.
Defined.

Lemma roles_of_turns history :
  map role (flat_map turn_messages history)
  = List.concat (repeat [lit "user"; lit "assistant"] (List.length history)).
Proof.
  induction history as [|turn history IH]; [reflexivity|].
  cbn [flat_map List.length repeat List.concat]. rewrite map_app, IH.
  reflexivity.
Qed.

(** X2: in every request the roles are: system, only if the system prompt
    is not blank and only in first place; then user and assistant in
    turn, once per Turn of the history; then user.  Lines 22-34. *)
Theorem roles_alternate message history sp t mt net :
  map (map role)
    (sent_messages (fst (run net (chat_with_model message history sp t mt))))
  = [(if truthy (strip sp) then [lit "system"] else [])
       ++ List.concat
            (repeat [lit "user"; lit "assistant"] (List.length history))
       ++ [lit "user"]].
Proof.
  rewrite chat_with_model_run.
  cbn [fst sent_messages flat_map chat_request messages app map].
  unfold messages_trimmed. rewrite !map_app, roles_of_turns.
  destruct (truthy (strip sp)); reflexivity.
Qed.

(** X3: the text recorded for a failed call is sent to the server as an
    assistant message by the next send.  Lines 29-31 and 65-76. *)
Theorem error_reply_is_replayed e m1 m2 history sp t mt net :
  strip m1 <> [] ->
  strip m2 <> [] ->
  exists updated,
    snd (run (mock (inl e)) (submit_message m1 history sp t mt))
    = inr (empty, updated) /\
    sent_messages (fst (run net (submit_message m2 updated sp t mt)))
    = [messages_trimmed m1 history sp
         ++ [Message (lit "assistant") (PStr (fault_text e));
             Message (lit "user") (PStr m2)]].
Proof.
  intros H1 H2.
  rewrite (submit_message_chat _ _ _ _ _ H1), chat_with_model_run.
  eexists. split; [reflexivity|].
  rewrite (submit_message_chat _ _ _ _ _ H2), chat_with_model_run.
  cbn [fst sent_messages flat_map chat_request messages app mock reply_to].
  now rewrite messages_trimmed_snoc.
Qed.

Lemma error_reply_is_replayed_witness :
  exists updated,
    snd (run (mock (inl (Exn true false (lit "Connection refused"))))
           (submit_message (lit "hi") [] [] 0.7%float 512))
    = inr (empty, updated) /\
    sent_messages
      (fst (run (mock (inr hello_response))
              (submit_message (lit "again") updated [] 0.7%float 512)))
    = [messages_trimmed (lit "hi") [] []
         ++ [Message (lit "assistant")
               (PStr (fault_text (Exn true false (lit "Connection refused"))));
             Message (lit "user") (PStr (lit "again"))]].
Proof.
  apply (error_reply_is_replayed (Exn true false (lit "Connection refused"))
           (lit "hi") (lit "again") [] [] 0.7%float 512
           (mock (inr hello_response)));
    vm_compute; discriminate.
Defined.

(** X4: the handler makes no call exactly when the message is empty or
    all whitespace.  Lines 153-156. *)
Theorem call_iff_not_blank message history sp t mt net :
  fst (run net (submit_message message history sp t mt)) = []
  <-> forallb isspace message = true.
Proof.
  rewrite <- strip_nil_iff. split.
  - intros Hcalls. destruct (strip message) eqn:E; [reflexivity|].
    rewrite submit_message_chat, chat_with_model_run in Hcalls by congruence.
    discriminate.
  - intros H. now rewrite (submit_message_blank _ _ _ _ _ H).
Qed.

(** ** Replies that cannot be read *)

Lemma chat_200_fault message history sp t mt r e :
  status_code r = 200 ->
  parse_reply r = inl e ->
  snd (run (mock (inr r)) (chat_with_model message history sp t mt))
  = inr (empty,
         history ++ [(message, PStr (unexpected_error_text (str_exn e)))]).
Proof.
  intros Hs Hp. rewrite chat_with_model_run.
  cbn [snd mock reply_to]. now rewrite Hs, Hp.
Qed.

(** X5: when a 200 reply is a JSON object in which [choices] is missing,
    or the first choice is an object without [message], or that message
    an object without [content], the Turn recorded reads
    "Unexpected Error" followed by the missing key in single quotes.
    Lines 55 and 73-76. *)
Theorem missing_key_reported message history sp t mt r top k :
  strip message <> [] ->
  status_code r = 200 ->
  decoded r = inr (PDict top) ->
  (k = lit "choices" /\ dict_get top k = None) \/
  (exists c rest,
     dict_get top (lit "choices") = Some (PList (PDict c :: rest)) /\
     ((k = lit "message" /\ dict_get c k = None) \/
      (exists m,
         dict_get c (lit "message") = Some (PDict m) /\
         k = lit "content" /\ dict_get m k = None))) ->
  snd (run (mock (inr r)) (submit_message message history sp t mt))
  = inr (empty,
         history
           ++ [(message,
                PStr (cross_mark ++ lit " **Unexpected Error**: "
                        ++ lit "'" ++ k ++ lit "'"))]).
Proof.
  intros H Hs Hd Hk. rewrite (submit_message_chat _ _ _ _ _ H).
  apply (chat_200_fault _ _ _ _ _ _ (KeyError (repr_str k)) Hs).
  unfold parse_reply, json. rewrite Hd. cbn [bind ret getitem].
  destruct Hk as [[-> Hc] | (c & rest & Hc & Hk)].
  - now rewrite Hc.
  - rewrite Hc. cbn [bind ret getitem]. rewrite seq_index_first.
    cbn [bind ret getitem].
    destruct Hk as [[-> Hm] | (m & Hm & -> & Hv)].
    + now rewrite Hm.
    + rewrite Hm. cbn [bind ret getitem]. now rewrite Hv.
Qed.

Lemma missing_key_reported_witness :
  snd (run (mock (inr error_body_response))
         (submit_message (lit "hi") [] [] 0.7%float 512))
  = inr (empty,
         [] ++ [(lit "hi",
                 PStr (cross_mark ++ lit " **Unexpected Error**: "
                         ++ lit "'" ++ lit "choices" ++ lit "'"))]).
Proof.
  apply (missing_key_reported (lit "hi") [] [] 0.7%float 512
           error_body_response [(lit "error", PStr (lit "overloaded"))]
           (lit "choices")).
  - vm_compute. discriminate.
  - reflexivity.
  - reflexivity.
  - left. split; reflexivity.
Defined.

(** X6: when a 200 reply has an empty [choices] list, the Turn recorded
    reads "Unexpected Error: list index out of range".  Lines 55 and
    73-76. *)
Theorem empty_choices_reported message history sp t mt r top :
  strip message <> [] ->
  status_code r = 200 ->
  decoded r = inr (PDict top) ->
  dict_get top (lit "choices") = Some (PList []) ->
  snd (run (mock (inr r)) (submit_message message history sp t mt))
  = inr (empty,
         history
           ++ [(message,
                PStr (cross_mark
                        ++ lit " **Unexpected Error**: list index out of range"))]).
Proof.
  intros H Hs Hd Hc. rewrite (submit_message_chat _ _ _ _ _ H).
  rewrite (chat_200_fault _ _ _ _ _ _
             (IndexError "list index out of range") Hs).
  - reflexivity.
  - unfold parse_reply, json. rewrite Hd. cbn [bind ret getitem].
    now rewrite Hc.
Qed.

Lemma empty_choices_reported_witness :
  snd (run (mock (inr no_choice_response))
         (submit_message (lit "hi") [] [] 0.7%float 512))
  = inr (empty,
         [] ++ [(lit "hi",
                 PStr (cross_mark
                         ++ lit " **Unexpected Error**: list index out of range"))]).
Proof.
  apply (empty_choices_reported (lit "hi") [] [] 0.7%float 512
           no_choice_response [(lit "choices", PList [])]).
  - vm_compute. discriminate.
  - reflexivity.
  - reflexivity.
  - reflexivity.
Defined.

(** X7: when the body of a 200 reply is not JSON, the Turn recorded reads
    "Unexpected Error" followed by the decoder's message.  Lines 54 and
    73-76. *)
Theorem undecodable_reply_reported message history sp t mt r msg :
  strip message <> [] ->
  status_code r = 200 ->
  decoded r = inl msg ->
  snd (run (mock (inr r)) (submit_message message history sp t mt))
  = inr (empty,
         history
           ++ [(message,
                PStr (cross_mark ++ lit " **Unexpected Error**: " ++ msg))]).
Proof.
  intros H Hs Hd. rewrite (submit_message_chat _ _ _ _ _ H).
  apply (chat_200_fault _ _ _ _ _ _ (JSONDecodeError msg) Hs).
  unfold parse_reply, json. now rewrite Hd.
Qed.

Lemma undecodable_reply_reported_witness :
  snd (run (mock (inr html_response))
         (submit_message (lit "hi") [] [] 0.7%float 512))
  = inr (empty,
         [] ++ [(lit "hi",
                 PStr (cross_mark ++ lit " **Unexpected Error**: "
                         ++ lit "Expecting value: line 1 column 1 (char 0)"))]).
Proof.
  apply (undecodable_reply_reported (lit "hi") [] [] 0.7%float 512
           html_response (lit "Expecting value: line 1 column 1 (char 0)")).
  - vm_compute. discriminate.
  - reflexivity.
  - reflexivity.
Defined.

(** X8: only the first choice counts: two 200 replies whose [choices]
    lists start with the same choice give the same result, whatever
    follows it.  Line 55. *)
Theorem first_choice_only message history sp t mt r1 r2 top1 top2 c rest1 rest2 :
  status_code r1 = 200 ->
  status_code r2 = 200 ->
  decoded r1 = inr (PDict top1) ->
  decoded r2 = inr (PDict top2) ->
  dict_get top1 (lit "choices") = Some (PList (c :: rest1)) ->
  dict_get top2 (lit "choices") = Some (PList (c :: rest2)) ->
  run (mock (inr r1)) (chat_with_model message history sp t mt)
  = run (mock (inr r2)) (chat_with_model message history sp t mt).
Proof.
  intros Hs1 Hs2 Hd1 Hd2 Hc1 Hc2. rewrite !chat_with_model_run.
  cbn [mock reply_to]. rewrite Hs1, Hs2.
  assert (Hp : parse_reply r1 = parse_reply r2).
  { unfold parse_reply, json. rewrite Hd1, Hd2. cbn [bind ret getitem].
    rewrite Hc1, Hc2. cbn [bind ret getitem]. now rewrite !seq_index_first. }
  now rewrite Hp.
Qed.

Lemma first_choice_only_witness :
  run (mock (inr hello_response))
    (chat_with_model (lit "hi") [] [] 0.7%float 512)
  = run (mock (inr two_choice_response))
      (chat_with_model (lit "hi") [] [] 0.7%float 512).
Proof.
  apply (first_choice_only (lit "hi") [] [] 0.7%float 512
           hello_response two_choice_response
           [(lit "choices",
             PList [PDict [(lit "message",
                            PDict [(lit "content", PStr (lit "hello"))])]])]
           [(lit "choices",
             PList [PDict [(lit "message",
                            PDict [(lit "content", PStr (lit "hello"))])];
                    PDict [(lit "message",
                            PDict [(lit "content", PStr (lit "bye"))])]])]
           (PDict [(lit "message",
                    PDict [(lit "content", PStr (lit "hello"))])])
           []
           [PDict [(lit "message", PDict [(lit "content", PStr (lit "bye"))])]]);
    reflexivity.
Defined.

(** ** Status texts *)

Lemma differ_at (n : nat) (a b : str) : nth n a 0%N <> nth n b 0%N -> a <> b.
Proof. intros Hn ->. now apply Hn. Qed.

(** X9: the four status texts are pairwise different, whatever the status
    code and the fault's description: the text tells which case
    occurred.  Lines 86-93. *)
Theorem status_texts_distinct code description :
  online_text <> degraded_text code /\
  online_text <> offline_text /\
  online_text <> unknown_text description /\
  degraded_text code <> offline_text /\
  degraded_text code <> unknown_text description /\
  offline_text <> unknown_text description.
Proof.
  repeat apply conj;
    first [ apply (differ_at 0); vm_compute; discriminate
          | apply (differ_at 22); vm_compute; discriminate ].
Qed.

(** ** Sessions *)

Lemma send_run net st :
  run net (Demo.send st)
  = if truthy (strip (Demo.msg_box st)) then
      ([chat_request (Demo.msg_box st) (Demo.chatbot st) (Demo.system_prompt st)
          (Demo.temperature st) (Demo.max_tokens st)],
       Demo.State (Demo.status_text st)
         (Demo.chatbot st
            ++ [(Demo.msg_box st,
                 reply_to (net (chat_request (Demo.msg_box st) (Demo.chatbot st)
                                  (Demo.system_prompt st) (Demo.temperature st)
                                  (Demo.max_tokens st))))])
         empty (Demo.system_prompt st) (Demo.temperature st) (Demo.max_tokens st))
    else
      ([], Demo.State (Demo.status_text st) (Demo.chatbot st) empty
             (Demo.system_prompt st) (Demo.temperature st) (Demo.max_tokens st)).
Proof.
  unfold Demo.send. rewrite run_io_bind. unfold submit_message.
  destruct (truthy (strip (Demo.msg_box st))); cbn [negb].
  - rewrite chat_with_model_run. reflexivity.
  - reflexivity.
Qed.

Lemma refresh_run net st :
  run net (Demo.refresh st)
  = ([status_request],
     Demo.State
       (match net status_request with
        | inr r => if status_code r =? 200 then online_text
                   else degraded_text (status_code r)
        | inl e => if is_ConnectionError e then offline_text
                   else unknown_text (str_exn e)
        end)
       (Demo.chatbot st) (Demo.msg_box st)
       (Demo.system_prompt st) (Demo.temperature st) (Demo.max_tokens st)).
Proof.
  unfold Demo.refresh. now rewrite run_io_bind, check_server_status_run.
Qed.

Lemma handle_chatbot ev st net :
  Demo.chatbot (snd (run net (Session.handle ev st))) = Demo.chatbot st \/
  Demo.chatbot (snd (run net (Session.handle ev st))) = [] \/
  exists reply,
    strip (Demo.msg_box st) <> [] /\
    Demo.chatbot (snd (run net (Session.handle ev st)))
    = Demo.chatbot st ++ [(Demo.msg_box st, reply)].
Proof.
  destruct ev; cbn [Session.handle]; try (now left).
  1,2: rewrite send_run; destruct (truthy (strip (Demo.msg_box st))) eqn:E;
    cbn [snd Demo.chatbot];
    [ right; right; eexists; split; [|reflexivity];
      intros Hn; rewrite Hn in E; discriminate
    | now left ].
  - right. now left.
  - rewrite refresh_run. now left.
Qed.


(** X11: if no Turn of the conversation has a blank user text when a
    session starts, none has at any later point, whatever the user does
    and whatever the server answers.  Lines 153-179. *)
Theorem no_blank_turn_reachable st0 st :
  Forall (fun turn : Turn => strip (fst turn) <> []) (Demo.chatbot st0) ->
  Session.reachable st0 st ->
  Forall (fun turn : Turn => strip (fst turn) <> []) (Demo.chatbot st).
Proof.
  intros H0 Hreach. induction Hreach as [|st ev net Hreach IH]; [exact H0|].
  destruct (handle_chatbot ev st net) as [-> | [-> | (reply & Hm & ->)]].
  - exact IH.
  - constructor.
  - apply Forall_app. split; [exact IH|]. constructor; [exact Hm | constructor].
Qed.

Lemma no_blank_turn_reachable_witness :
  Demo.chatbot
    (snd (run (mock (inr hello_response))
            (Session.handle Session.SendClick
               (snd (run (mock (inr hello_response))
                       (Session.handle (Session.MsgInput (lit "  "))
                          (snd (run (mock (inr hello_response))
                                  (Session.handle Session.MsgSubmit
                                     sample_state)))))))))
  = [(lit "a", PStr (lit "b")); (lit "hi", PStr (lit "hello"))] /\
  Forall (fun turn : Turn => strip (fst turn) <> [])
    (Demo.chatbot
       (snd (run (mock (inr hello_response))
               (Session.handle Session.SendClick
                  (snd (run (mock (inr hello_response))
                          (Session.handle (Session.MsgInput (lit "  "))
                             (snd (run (mock (inr hello_response))
                                     (Session.handle Session.MsgSubmit
                                        sample_state)))))))))).
Proof.
  split; [reflexivity|].
  apply (no_blank_turn_reachable sample_state).
  - repeat constructor. vm_compute. discriminate.
  - do 3 apply Session.reach_event. apply Session.reach_start.
Defined.




(** X14: refreshing makes the one GET, writes one of the four status
    texts, and changes nothing else: the conversation, the message being
    typed and the settings stay.  Lines 82-93 and 176-179. *)
Theorem refresh_only_rewrites_status net st :
  fst (run net (Demo.refresh st)) = [status_request] /\
  (Demo.status_text (snd (run net (Demo.refresh st))) = online_text \/
   Demo.status_text (snd (run net (Demo.refresh st))) = offline_text \/
   (exists code,
      Demo.status_text (snd (run net (Demo.refresh st))) = degraded_text code) \/
   (exists description,
      Demo.status_text (snd (run net (Demo.refresh st)))
      = unknown_text description)) /\
  Demo.chatbot (snd (run net (Demo.refresh st))) = Demo.chatbot st /\
  Demo.msg_box (snd (run net (Demo.refresh st))) = Demo.msg_box st /\
  Demo.system_prompt (snd (run net (Demo.refresh st))) = Demo.system_prompt st /\
  Demo.temperature (snd (run net (Demo.refresh st))) = Demo.temperature st /\
  Demo.max_tokens (snd (run net (Demo.refresh st))) = Demo.max_tokens st.
Proof.
  rewrite refresh_run. cbn [fst snd Demo.status_text Demo.chatbot Demo.msg_box
    Demo.system_prompt Demo.temperature Demo.max_tokens].
  split; [reflexivity|]. split; [|repeat split].
  destruct (net status_request) as [e|r].
  - destruct (is_ConnectionError e); [right; now left|].
    right; right; right. eexists. reflexivity.
  - destruct (status_code r =? 200); [now left|].
    right; right; left. eexists. reflexivity.
Qed.
